(** * The provider proxy of the extension: request routing

    A shallow embedding of [Proxy.start] (apps/extension/src/provider/Proxy.ts):
    the message listener that filters inbound window messages, gates them on
    the approved origins, dispatches them by name on the [Namada] object and
    posts one correlated response.

    The listener is an [async] function.  It is embedded as a function into a
    small monad that records the effects it performs, in order, together with
    the way the listener's promise settles. *)

From Stdlib Require Import String List ZArith Bool DecimalString Lia.
Import ListNotations.
Open Scope string_scope.

(** ** JavaScript values *)

#[local] Set Warnings "-register-all".

(** The values that travel in a message: what the structured clone of a
    [postMessage] payload can hold, restricted to primitives, plain objects,
    arrays and [Error] objects.  Numbers are restricted to integers. *)
Inductive Value : Type :=
| VUndefined
| VNull
| VBool (b : bool)
| VNum (n : Z)
| VStr (s : string)
| VArr (items : list Value)
| VObj (fields : list (string * Value))
| VError (message : string).

(** [!v] is [negb (truthy v)]: the falsy values are [undefined], [null],
    [false], [0] and the empty string. *)
Definition truthy (v : Value) : bool :=
  match v with
  | VUndefined | VNull => false
  | VBool b => b
  | VNum n => negb (n =? 0)%Z
  | VStr s => negb (s =? "")
  | VArr _ | VObj _ | VError _ => true
  end.

Fixpoint lookup (k : string) (fields : list (string * Value)) : option Value :=
  match fields with
  | [] => None
  | (k', v) :: rest => if k' =? k then Some v else lookup k rest
  end.

(** The property read [v.k] for the keys the listener reads ([type], [id],
    [method], [args]).  None of them is a property of a primitive, an array
    or an [Error]; reading them there gives [undefined], as does reading a
    key a plain object does not have.  ([null] and [undefined] are never
    read: the listener tests [!message] first.) *)
Definition get (v : Value) (k : string) : Value :=
  match v with
  | VObj fields =>
      match lookup k fields with
      | Some x => x
      | None => VUndefined
      end
  | _ => VUndefined
  end.

(** [v === s] for a string literal [s]: strict equality never converts. *)
Definition strict_eq_string (v : Value) (s : string) : bool :=
  match v with
  | VStr x => x =? s
  | _ => false
  end.

Definition join_item (to_string : Value -> string) (v : Value) : string :=
  match v with
  | VUndefined | VNull => ""
  | _ => to_string v
  end.

(** [ToString], as a template literal and a computed property key apply it.
    It is exact on strings, which is what a method name is, and on
    [undefined], [null] and the booleans.  Elsewhere it follows JavaScript
    on the common values only: an integer prints in decimal (JavaScript
    changes to the exponent notation from 10^21 on), and a plain object
    gives "[object Object]" (in JavaScript an object that has a [toString]
    of its own, which a message can only hold as data, makes the conversion
    throw a [TypeError]). *)
Fixpoint ToString (v : Value) : string :=
  match v with
  | VUndefined => "undefined"
  | VNull => "null"
  | VBool true => "true"
  | VBool false => "false"
  | VNum n => NilZero.string_of_int (Z.to_int n)
  | VStr s => s
  | VArr items =>
      String.concat "," (map (join_item ToString) items)
  | VObj _ => "[object Object]"
  | VError m => if m =? "" then "Error" else "Error: " ++ m
  end.

(** [Array.prototype.includes] on an array of strings. *)
Definition includes (l : list string) (x : string) : bool :=
  existsb (String.eqb x) l.

(** [hay.includes(needle)] on strings. *)
Fixpoint string_includes (needle hay : string) : bool :=
  prefix needle hay ||
  match hay with
  | EmptyString => false
  | String _ rest => string_includes needle rest
  end.

(** ** Promises and the collaborators of the proxy *)

(** The state a promise reaches: fulfilled, rejected, or never settled. *)
Inductive Promise (A : Type) : Type :=
| Fulfilled (a : A)
| Rejected (reason : Value)
| Pending.
Arguments Fulfilled {A} a.
Arguments Rejected {A} reason.
Arguments Pending {A}.

(** [ApprovedOriginsStore] (background/approvals): an array of origins. *)
Definition ApprovedOriginsStore : Type := list string.

(** [KVStore<ApprovedOriginsStore>]: what [get(key)] answers when it is
    called; [Promise<T | undefined>]. *)
Record KVStore : Type := {
  kv_get : string -> Promise (option ApprovedOriginsStore)
}.

(** A call either throws synchronously or returns a promise (a value that is
    not a promise is awaited as a fulfilled one). *)
Inductive CallResult : Type :=
| Returns (p : Promise Value)
| Throws (e : Value).

(** What [namada[key]] evaluates to, own or inherited. *)
Inductive Property : Type :=
| Missing
| Data (v : Value)
| Function (f : Value -> CallResult).

(** The [Namada] capability object, seen through its property reads. *)
Definition Namada : Type := string -> Property.

Definition property_truthy (p : Property) : bool :=
  match p with
  | Missing => false
  | Data v => truthy v
  | Function _ => true
  end.

(** [typeof p === "function"]. *)
Definition typeof_function (p : Property) : bool :=
  match p with
  | Function _ => true
  | _ => false
  end.

(** ** Messages *)

(** [ProxyRequestResponse["result"]]: each key is present or not. *)
Record ProxyResult : Type := {
  return_ : option Value;
  error : option Value
}.

Record ProxyRequestResponse : Type := {
  type : string;
  id : Value;
  result : ProxyResult
}.

(** [MessageEvent<ProxyRequest>]: the payload is whatever was posted. *)
Record MessageEvent : Type := {
  data : Value;
  origin : string
}.

(** ** The effects of the listener *)

Inductive Effect : Type :=
| StoreGet (key : string)
| Invoke (method : string) (args : Value)
| PostMessage (m : ProxyRequestResponse).

(** How an asynchronous computation ends: with a value, with a thrown or
    rejected value, or suspended for ever on a promise that never settles. *)
Inductive Outcome (A : Type) : Type :=
| Done (a : A)
| Raised (e : Value)
| Suspended.
Arguments Done {A} a.
Arguments Raised {A} e.
Arguments Suspended {A}.

Module Async.

(** The effects performed, oldest first, and the outcome. *)
Definition t (A : Type) : Type := (list Effect * Outcome A)%type.

Definition ret {A} (a : A) : t A := ([], Done a).

Definition throw {A} (e : Value) : t A := ([], Raised e).

Definition bind {A B} (m : t A) (k : A -> t B) : t B :=
  match m with
  | (tr, Done a) => let (tr', o) := k a in ((tr ++ tr')%list, o)
  | (tr, Raised e) => (tr, Raised e)
  | (tr, Suspended) => (tr, Suspended)
  end.

(** [try { m } catch (e) { h e }]. *)
Definition try_catch {A} (m : t A) (h : Value -> t A) : t A :=
  match m with
  | (tr, Raised e) => let (tr', o) := h e in ((tr ++ tr')%list, o)
  | other => other
  end.

Definition perform (eff : Effect) : t unit := ([eff], Done tt).

(** [await p]. *)
Definition await {A} (p : Promise A) : t A :=
  match p with
  | Fulfilled a => ret a
  | Rejected e => throw e
  | Pending => ([], Suspended)
  end.

Definition trace {A} (m : t A) : list Effect := fst m.
Definition outcome {A} (m : t A) : Outcome A := snd m.

End Async.

Notation "x <- m ;; k" := (Async.bind m (fun x => k))
  (at level 61, m at next level, right associativity).
Notation "m ;;; k" := (Async.bind m (fun _ => k))
  (at level 61, right associativity).

(** The responses among the effects, oldest first. *)
Fixpoint posted (tr : list Effect) : list ProxyRequestResponse :=
  match tr with
  | [] => []
  | PostMessage m :: rest => m :: posted rest
  | _ :: rest => posted rest
  end.

(** The keys read from the store, oldest first. *)
Fixpoint store_reads (tr : list Effect) : list string :=
  match tr with
  | [] => []
  | StoreGet k :: rest => k :: store_reads rest
  | _ :: rest => store_reads rest
  end.

(** The methods invoked on the capability object, oldest first. *)
Fixpoint invoked (tr : list Effect) : list string :=
  match tr with
  | [] => []
  | Invoke m _ :: rest => m :: invoked rest
  | _ :: rest => invoked rest
  end.

(** ** A concrete page, for the examples *)

Module Sample.

Definition balances : Value :=
  VArr [VArr [VStr "tok1"; VStr "100"]].

Definition resolves (v : Value) : Property :=
  Function (fun _ => Returns (Fulfilled v)).

Definition rejects (e : Value) : Property :=
  Function (fun _ => Returns (Rejected e)).

(** A capability object with five methods and one data property. *)
Definition namada : Namada := fun key =>
  if key =? "connect" then resolves VUndefined
  else if key =? "isConnected" then resolves (VBool false)
  else if key =? "queryBalance" then resolves balances
  else if key =? "signTx" then rejects (VError "Signing rejected")
  else if key =? "getChain"
       then Function (fun _ => Throws (VStr "No chain found!"))
  else if key =? "version" then Data (VStr "0.1.0")
  else Missing.

Definition key : string := "approved-origins".

Definition request (i m : string) (a : list Value) : Value :=
  VObj [("type", VStr "request"); ("id", VStr i); ("method", VStr m);
        ("args", VArr a)].

Definition empty_store : KVStore :=
  {| kv_get := fun _ => Fulfilled None |}.

Definition store : KVStore :=
  {| kv_get := fun k =>
       if k =? key then Fulfilled (Some ["https://app.example"])
       else Fulfilled None |}.

Definition broken_store : KVStore :=
  {| kv_get := fun _ => Rejected (VError "storage unavailable") |}.

Definition response (i : string) (r : ProxyResult) : ProxyRequestResponse :=
  {| type := "response"; id := VStr i; result := r |}.

Definition from (o : string) (m : Value) : MessageEvent :=
  {| data := m; origin := o |}.

Definition query : MessageEvent :=
  from "https://app.example"
    (request "1" "queryBalance" [VStr "addr1"; VArr [VStr "tok1"]]).

Definition unknown : MessageEvent :=
  from "https://app.example" (request "2" "doesNotExist" []).

Definition sign : MessageEvent :=
  from "https://app.example" (request "3" "signTx" []).

Definition stranger : MessageEvent :=
  from "https://evil.example" (request "3" "signTx" []).

Definition connect : MessageEvent :=
  from "https://evil.example" (request "4" "connect" []).

End Sample.

Section Proxy.

(** The enum [ProxyRequestTypes] is declared in ./types, which is not among
    the sources.  Its two members, the wire tags of a request and of a
    response, are parameters of the development. *)
Variable ProxyRequestTypes_Request : string.
Variable ProxyRequestTypes_Response : string.

(** [APPROVED_ORIGINS_KEY] is declared in background/approvals, which is not
    among the sources: the key under which the store holds the approved
    origins, a parameter as well. *)
Variable APPROVED_ORIGINS_KEY : string.

(** [approvedOriginsStore.get(key)], awaited. *)
Definition store_get (s : KVStore) (key : string)
  : Async.t (option ApprovedOriginsStore) :=
  Async.perform (StoreGet key) ;;;
  Async.await (kv_get s key).

(** [await namada[method](args)], [p] being what [namada[method]] is.
    Calling what is not a function throws a [TypeError]. *)
Definition call (key : string) (p : Property) (args : Value) : Async.t Value :=
  match p with
  | Function f =>
      Async.perform (Invoke key args) ;;;
      match f args with
      | Returns pr => Async.await pr
      | Throws e => Async.throw e
      end
  | _ => Async.throw (VError (key ++ " is not a function"))
  end.

(** [Proxy.postMessage]: [window.postMessage] is taken to deliver what it
    is given. *)
Definition postMessage (m : ProxyRequestResponse) : Async.t unit :=
  Async.perform (PostMessage m).

(** Line 18: is the message let through as a request? *)
Definition is_request (message : Value) : bool :=
  negb (negb (truthy message)
        || negb (strict_eq_string (get message "type")
                   ProxyRequestTypes_Request)).

(** Line 24: the two methods that skip the check of the origin. *)
Definition needs_approval (method : Value) : bool :=
  negb (strict_eq_string method "connect")
  && negb (strict_eq_string method "isConnected").

(** Lines 24-30: [true] when the listener goes on to dispatch, [false]
    when it returns early. *)
Definition approval (approvedOriginsStore : KVStore) (method : Value)
    (e_origin : string) : Async.t bool :=
  if needs_approval method then
    stored <- store_get approvedOriginsStore APPROVED_ORIGINS_KEY ;;
    let approvedOrigins :=
      match stored with
      | Some l => l
      | None => []
      end in
    Async.ret (includes approvedOrigins e_origin)
  else Async.ret true.

(** Lines 32-57: the [try]/[catch] around the lookup, the call and the
    response. *)
Definition dispatch (namada : Namada) (message : Value) : Async.t unit :=
  let method := get message "method" in
  let args := get message "args" in
  let member := namada (ToString method) in
  Async.try_catch
    ((if negb (property_truthy member) || negb (typeof_function member)
      then Async.throw
             (VError (ToString (get message "method") ++ " not found!"))
      else Async.ret tt) ;;;
     result <- call (ToString method) member args ;;
     postMessage {| type := ProxyRequestTypes_Response;
                    id := get message "id";
                    result := {| return_ := Some result; error := None |} |})
    (fun e =>
     postMessage {| type := ProxyRequestTypes_Response;
                    id := get message "id";
                    result := {| return_ := None; error := Some e |} |}).

(** The listener [Proxy.start] registers. *)
Definition listener (namada : Namada) (approvedOriginsStore : KVStore)
    (e : MessageEvent) : Async.t unit :=
  let message := data e in
  if negb (is_request message) then Async.ret tt
  else
    let method := get message "method" in
    go_on <- approval approvedOriginsStore method (origin e) ;;
    if negb go_on then Async.ret tt
    else dispatch namada message.

(** The origin is in the approval set: the store answers the read of the
    key with an array that holds it. *)
Definition approved (s : KVStore) (o : string) : Prop :=
  exists l, kv_get s APPROVED_ORIGINS_KEY = Fulfilled (Some l) /\ In o l.

(** The method is one of the two that skip the check of the origin. *)
Definition exempt (method : Value) : Prop :=
  method = VStr "connect" \/ method = VStr "isConnected".




(** The two shapes of a response of the proxy to [message]. *)
Definition success (message v : Value) : ProxyRequestResponse :=
  {| type := ProxyRequestTypes_Response;
     id := get message "id";
     result := {| return_ := Some v; error := None |} |}.

Definition failure (message e : Value) : ProxyRequestResponse :=
  {| type := ProxyRequestTypes_Response;
     id := get message "id";
     result := {| return_ := None; error := Some e |} |}.

(** The message passes the filter and the gate: it is a request, and its
    method is exempt or its origin approved. *)
Definition passes (s : KVStore) (e : MessageEvent) : Prop :=
  get (data e) "type" = VStr ProxyRequestTypes_Request
  /\ (exempt (get (data e) "method") \/ approved s (origin e)).

(** The method of [message] is a function whose call returns a promise that
    never settles. *)
Definition hangs (namada : Namada) (message : Value) : Prop :=
  exists f,
    namada (ToString (get message "method")) = Function f
    /\ f (get message "args") = Returns Pending.

(** *** A page over time *)

(** What happens around the listener: a message arrives, or the approval
    flow of the extension rewrites a key of the store. *)
Inductive Input : Type :=
| Deliver (e : MessageEvent)
| StoreSet (key : string) (value : option ApprovedOriginsStore).

(** Modelled from the spec: the write of the approval flow, which is not
    among the sources ("a new origin approved via a separate UI flow while
    the page is live"); afterwards [get key] resolves with the new value. *)
Definition store_set (s : KVStore) (key : string)
    (value : option ApprovedOriginsStore) : KVStore :=
  {| kv_get := fun k => if k =? key then Fulfilled value else kv_get s k |}.

(** The listener run on each delivery, against the store as it is then.
    The listener keeps nothing from one message to the next. *)
Fixpoint run (namada : Namada) (s : KVStore) (inputs : list Input)
  : list (Async.t unit) :=
  match inputs with
  | [] => []
  | Deliver e :: rest => listener namada s e :: run namada s rest
  | StoreSet key value :: rest => run namada (store_set s key value) rest
  end.

(** The store once the inputs have happened. *)
Fixpoint store_after (s : KVStore) (inputs : list Input) : KVStore :=
  match inputs with
  | [] => s
  | Deliver _ :: rest => store_after s rest
  | StoreSet key value :: rest => store_after (store_set s key value) rest
  end.

(** ** Properties *)

Lemma includes_In (l : list string) (x : string) :
  includes l x = true <-> In x l.
Proof.
  unfold includes. rewrite existsb_exists. split.
  - intros [y [Hin Heq]]. apply String.eqb_eq in Heq. now subst.
  - intros Hin. exists x. split; [assumption | apply String.eqb_refl].
Qed.

Lemma strict_eq_string_spec (v : Value) (s : string) :
  strict_eq_string v s = true <-> v = VStr s.
Proof.
  destruct v; simpl; split; try discriminate.
  - intros H. apply String.eqb_eq in H. now subst.
  - intros H. injection H as ->. apply String.eqb_refl.
Qed.

(** A message whose [type] is the request tag passes the guard of line 18. *)
Lemma tagged_is_request (message : Value) :
  get message "type" = VStr ProxyRequestTypes_Request ->
  is_request message = true.
Proof.
  intros H. unfold is_request. rewrite H. simpl. rewrite String.eqb_refl.
  destruct message; simpl in *; try discriminate. reflexivity.
Qed.

Lemma is_request_tagged (message : Value) :
  is_request message = true ->
  get message "type" = VStr ProxyRequestTypes_Request.
Proof.
  unfold is_request. intros H. apply negb_true_iff, orb_false_iff in H.
  destruct H as [_ H]. apply negb_false_iff in H.
  now apply strict_eq_string_spec.
Qed.

Lemma needs_approval_false (method : Value) :
  needs_approval method = false <->
  method = VStr "connect" \/ method = VStr "isConnected".
Proof.
  unfold needs_approval. rewrite andb_false_iff, !negb_false_iff.
  now rewrite !strict_eq_string_spec.
Qed.

Lemma needs_approval_true (method : Value) :
  needs_approval method = true <->
  method <> VStr "connect" /\ method <> VStr "isConnected".
Proof.
  unfold needs_approval. rewrite andb_true_iff, !negb_true_iff.
  rewrite <- !not_true_iff_false, !strict_eq_string_spec. tauto.
Qed.

Lemma prefix_app (a b : string) : prefix a (a ++ b) = true.
Proof.
  induction a as [ | c a IH]; simpl; [now destruct b | ].
  destruct (Ascii.ascii_dec c c); [assumption | contradiction].
Qed.

Lemma string_includes_app (a b : string) : string_includes a (a ++ b) = true.
Proof.
  assert (H : forall hay, prefix a hay = true -> string_includes a hay = true)
    by (intros [ | c hay] Hp; simpl; simpl in Hp; rewrite Hp; reflexivity).
  apply H, prefix_app.
Qed.

(** *** The dispatch, case by case *)

Lemma dispatch_not_function (namada : Namada) (message : Value) :
  typeof_function (namada (ToString (get message "method"))) = false ->
  dispatch namada message =
  ([PostMessage
      (failure message
         (VError (ToString (get message "method") ++ " not found!")))],
   Done tt).
Proof.
  intros H. unfold dispatch. rewrite H, orb_true_r. reflexivity.
Qed.

Lemma dispatch_function (namada : Namada) (message : Value)
    (f : Value -> CallResult) :
  namada (ToString (get message "method")) = Function f ->
  dispatch namada message =
  let name := ToString (get message "method") in
  let args := get message "args" in
  match f args with
  | Returns (Fulfilled v) =>
      ([Invoke name args; PostMessage (success message v)], Done tt)
  | Returns (Rejected e) | Throws e =>
      ([Invoke name args; PostMessage (failure message e)], Done tt)
  | Returns Pending => ([Invoke name args], Suspended)
  end.
Proof.
  intros H. unfold dispatch. rewrite H. simpl.
  destruct (f (get message "args")) as [[v | e | ] | e]; reflexivity.
Qed.

(** The dispatch never reads the store. *)
Lemma dispatch_reads_nothing (namada : Namada) (message : Value) :
  store_reads (Async.trace (dispatch namada message)) = [].
Proof.
  destruct (namada (ToString (get message "method"))) as [ | v | f] eqn:E.
  - rewrite dispatch_not_function by (rewrite E; reflexivity). reflexivity.
  - rewrite dispatch_not_function by (rewrite E; reflexivity). reflexivity.
  - rewrite (dispatch_function _ _ f E). simpl.
    destruct (f (get message "args")) as [[v | e | ] | e]; reflexivity.
Qed.


(** *** The listener, case by case *)

Lemma listener_not_request (namada : Namada) (s : KVStore) (e : MessageEvent) :
  is_request (data e) = false -> listener namada s e = ([], Done tt).
Proof.
  intros H. unfold listener. rewrite H. reflexivity.
Qed.

Lemma listener_exempt (namada : Namada) (s : KVStore) (e : MessageEvent) :
  is_request (data e) = true ->
  needs_approval (get (data e) "method") = false ->
  listener namada s e = dispatch namada (data e).
Proof.
  intros Hr Hn. unfold listener, approval. rewrite Hr, Hn. simpl.
  now destruct (dispatch namada (data e)).
Qed.

Lemma listener_gated (namada : Namada) (s : KVStore) (e : MessageEvent) :
  is_request (data e) = true ->
  needs_approval (get (data e) "method") = true ->
  listener namada s e =
  match kv_get s APPROVED_ORIGINS_KEY with
  | Fulfilled stored =>
      if includes (match stored with Some l => l | None => [] end) (origin e)
      then (StoreGet APPROVED_ORIGINS_KEY
              :: Async.trace (dispatch namada (data e)),
            Async.outcome (dispatch namada (data e)))
      else ([StoreGet APPROVED_ORIGINS_KEY], Done tt)
  | Rejected r => ([StoreGet APPROVED_ORIGINS_KEY], Raised r)
  | Pending => ([StoreGet APPROVED_ORIGINS_KEY], Suspended)
  end.
Proof.
  intros Hr Hn. unfold listener, approval, store_get. rewrite Hr, Hn. simpl.
  destruct (kv_get s APPROVED_ORIGINS_KEY) as [stored | r | ]; simpl;
    try reflexivity.
  destruct (includes _ (origin e)); simpl; [ | reflexivity].
  now destruct (dispatch namada (data e)).
Qed.

Lemma listener_approved (namada : Namada) (s : KVStore) (e : MessageEvent) :
  is_request (data e) = true ->
  needs_approval (get (data e) "method") = true ->
  approved s (origin e) ->
  listener namada s e =
  (StoreGet APPROVED_ORIGINS_KEY :: Async.trace (dispatch namada (data e)),
   Async.outcome (dispatch namada (data e))).
Proof.
  intros Hr Hn [l [Hget Hin]]. rewrite (listener_gated _ _ _ Hr Hn), Hget.
  apply includes_In in Hin. now rewrite Hin.
Qed.

Lemma listener_not_approved (namada : Namada) (s : KVStore) (e : MessageEvent) :
  is_request (data e) = true ->
  needs_approval (get (data e) "method") = true ->
  ~ approved s (origin e) ->
  Async.trace (listener namada s e) = [StoreGet APPROVED_ORIGINS_KEY].
Proof.
  intros Hr Hn Hno. rewrite (listener_gated _ _ _ Hr Hn).
  destruct (kv_get s APPROVED_ORIGINS_KEY) as [[l | ] | r | ] eqn:Hget;
    try reflexivity.
  destruct (includes l (origin e)) eqn:Hin; [ | reflexivity].
  exfalso. apply Hno. exists l. split; [assumption | now apply includes_In].
Qed.

(** The listener goes on to dispatch: the method is exempt or the origin
    is approved. *)
Lemma listener_go_on (namada : Namada) (s : KVStore) (e : MessageEvent) :
  get (data e) "type" = VStr ProxyRequestTypes_Request ->
  exempt (get (data e) "method") \/ approved s (origin e) ->
  posted (Async.trace (listener namada s e))
    = posted (Async.trace (dispatch namada (data e)))
  /\ invoked (Async.trace (listener namada s e))
    = invoked (Async.trace (dispatch namada (data e)))
  /\ Async.outcome (listener namada s e)
    = Async.outcome (dispatch namada (data e)).
Proof.
  intros Ht Hgo. apply tagged_is_request in Ht.
  destruct (needs_approval (get (data e) "method")) eqn:Hn.
  - destruct Hgo as [Hx | Ha].
    + apply needs_approval_false in Hx. congruence.
    + rewrite (listener_approved _ _ _ Ht Hn Ha). now repeat split.
  - rewrite (listener_exempt _ _ _ Ht Hn). now repeat split.
Qed.

(** ** The claims *)


(** C2.  A request whose method is neither [connect] nor [isConnected],
    from an origin that is not in the approval set: the listener posts no
    response and invokes nothing; all it does is read the store. *)
Theorem unapproved_origin_dropped (namada : Namada) (s : KVStore)
    (e : MessageEvent) :
  get (data e) "type" = VStr ProxyRequestTypes_Request ->
  get (data e) "method" <> VStr "connect" ->
  get (data e) "method" <> VStr "isConnected" ->
  ~ approved s (origin e) ->
  posted (Async.trace (listener namada s e)) = []
  /\ invoked (Async.trace (listener namada s e)) = []
  /\ Async.trace (listener namada s e) = [StoreGet APPROVED_ORIGINS_KEY].
Proof.
  intros Ht Hc Hi Hno. apply tagged_is_request in Ht.
  assert (Hn : needs_approval (get (data e) "method") = true)
    by (apply needs_approval_true; split; assumption).
  rewrite (listener_not_approved _ _ _ Ht Hn Hno). repeat split.
Qed.

(** C3.  A request that goes on to dispatch (exempt method or approved
    origin) and whose method is a name, that is a string, under which the
    capability object has no function: the listener posts exactly one
    response, with the [id] of the request, without [result.return], and
    with an [Error] under [result.error] whose message is the name followed
    by " not found!", so that it contains the name. *)
Theorem unknown_method_one_error (namada : Namada) (s : KVStore)
    (e : MessageEvent) (name : string) :
  get (data e) "type" = VStr ProxyRequestTypes_Request ->
  get (data e) "method" = VStr name ->
  exempt (VStr name) \/ approved s (origin e) ->
  typeof_function (namada name) = false ->
  posted (Async.trace (listener namada s e)) =
    [ {| type := ProxyRequestTypes_Response;
         id := get (data e) "id";
         result := {| return_ := None;
                      error := Some (VError (name ++ " not found!")) |} |} ]
  /\ string_includes name (name ++ " not found!") = true
  /\ Async.outcome (listener namada s e) = Done tt.
Proof.
  intros Ht Hm Hgo Hnf. rewrite <- Hm in Hgo.
  destruct (listener_go_on namada s e Ht Hgo) as [Hp [_ Ho]].
  assert (Hnf' : typeof_function
                   (namada (ToString (get (data e) "method"))) = false)
    by (rewrite Hm; exact Hnf).
  rewrite Hp, Ho, (dispatch_not_function _ _ Hnf'), Hm. simpl.
  repeat split. apply string_includes_app.
Qed.

(** C4.  A message that is [null] or [undefined], an object without a
    [type], or whose [type] is not the request tag: the listener does
    nothing at all and completes normally. *)
Theorem foreign_message_ignored (namada : Namada) (s : KVStore)
    (e : MessageEvent) :
  data e = VNull
  \/ data e = VUndefined
  \/ (exists fields, data e = VObj fields /\ lookup "type" fields = None)
  \/ get (data e) "type" <> VStr ProxyRequestTypes_Request ->
  listener namada s e = ([], Done tt).
Proof.
  intros H. apply listener_not_request.
  destruct (is_request (data e)) eqn:Hr; [exfalso | reflexivity].
  apply is_request_tagged in Hr.
  destruct H as [H | [H | [[fields [H Hl]] | H]]].
  - rewrite H in Hr. discriminate.
  - rewrite H in Hr. discriminate.
  - rewrite H in Hr. simpl in Hr. rewrite Hl in Hr. discriminate.
  - contradiction.
Qed.

(** C5.  The check of the origin is skipped for [connect] and
    [isConnected] and for nothing else.  For a request with one of the
    two, the listener is the dispatch, whatever the store and the origin,
    and never reads the store.  For a request with any other method the
    listener reads the store once, and it posts or invokes something only
    if the origin is in the approval set. *)
Theorem exactly_two_methods_exempt (namada : Namada) (s : KVStore)
    (e : MessageEvent) :
  get (data e) "type" = VStr ProxyRequestTypes_Request ->
  (needs_approval (get (data e) "method") = false
     <-> exempt (get (data e) "method"))
  /\ (exempt (get (data e) "method") ->
        listener namada s e = dispatch namada (data e)
        /\ store_reads (Async.trace (listener namada s e)) = [])
  /\ (~ exempt (get (data e) "method") ->
        store_reads (Async.trace (listener namada s e))
          = [APPROVED_ORIGINS_KEY]
        /\ (posted (Async.trace (listener namada s e)) <> []
            \/ invoked (Async.trace (listener namada s e)) <> []
            -> approved s (origin e))).
Proof.
  intros Ht. apply tagged_is_request in Ht.
  split; [apply needs_approval_false | ]. split.
  - intros Hx. apply needs_approval_false in Hx.
    rewrite (listener_exempt _ _ _ Ht Hx).
    split; [reflexivity | apply dispatch_reads_nothing].
  - intros Hnx.
    assert (Hn : needs_approval (get (data e) "method") = true).
    { destruct (needs_approval (get (data e) "method")) eqn:E;
        [reflexivity | ].
      exfalso. now apply Hnx, needs_approval_false. }
    rewrite (listener_gated _ _ _ Ht Hn).
    destruct (kv_get s APPROVED_ORIGINS_KEY) as [[l | ] | r | ] eqn:Hget;
      simpl; try (split; [reflexivity | intros [H | H]; contradiction]).
    destruct (includes l (origin e)) eqn:Hin; simpl.
    + split.
      * f_equal. apply dispatch_reads_nothing.
      * intros _. exists l. split; [assumption | now apply includes_In].
    + split; [reflexivity | intros [H | H]; contradiction].
Qed.


(** C7.  A request that goes on to dispatch and whose method, once
    invoked, throws [x] or returns a promise rejected with [x]: the method
    is invoked once and the one response posted carries the [id] of the
    request and [x] itself under [result.error]. *)
Theorem raised_value_forwarded (namada : Namada) (s : KVStore)
    (e : MessageEvent) (f : Value -> CallResult) (x : Value) :
  get (data e) "type" = VStr ProxyRequestTypes_Request ->
  exempt (get (data e) "method") \/ approved s (origin e) ->
  namada (ToString (get (data e) "method")) = Function f ->
  f (get (data e) "args") = Throws x
  \/ f (get (data e) "args") = Returns (Rejected x) ->
  invoked (Async.trace (listener namada s e))
    = [ToString (get (data e) "method")]
  /\ posted (Async.trace (listener namada s e)) =
    [ {| type := ProxyRequestTypes_Response;
         id := get (data e) "id";
         result := {| return_ := None; error := Some x |} |} ].
Proof.
  intros Ht Hgo Hf Hx.
  destruct (listener_go_on namada s e Ht Hgo) as [Hp [Hi _]].
  rewrite Hp, Hi, (dispatch_function _ _ f Hf). simpl.
  destruct Hx as [Hx | Hx]; rewrite Hx; split; reflexivity.
Qed.

Lemma run_app (namada : Namada) (pre rest : list Input) :
  forall s,
  run namada s (pre ++ rest)
    = (run namada s pre ++ run namada (store_after s pre) rest)%list.
Proof.
  induction pre as [ | [e | key value] pre IH]; intros s; simpl.
  - reflexivity.
  - now rewrite IH.
  - apply IH.
Qed.

(** C8.  A request whose method is neither [connect] nor [isConnected]
    reads the store exactly once, and each delivery is answered from the
    store as it is at that delivery: after any inputs [pre] the listener
    runs against [store_after s pre].  So when the origin is not approved,
    then gets approved, the same request is dropped the first time and
    dispatched the second. *)
Theorem approval_read_on_every_request (namada : Namada) (s : KVStore)
    (e : MessageEvent) (others : ApprovedOriginsStore) :
  get (data e) "type" = VStr ProxyRequestTypes_Request ->
  get (data e) "method" <> VStr "connect" ->
  get (data e) "method" <> VStr "isConnected" ->
  store_reads (Async.trace (listener namada s e)) = [APPROVED_ORIGINS_KEY]
  /\ (forall pre,
        run namada s (pre ++ [Deliver e])
          = (run namada s pre
               ++ [listener namada (store_after s pre) e])%list)
  /\ (~ approved s (origin e) ->
        exists first,
          run namada s
            [Deliver e;
             StoreSet APPROVED_ORIGINS_KEY (Some (origin e :: others));
             Deliver e]
          = [first;
             (StoreGet APPROVED_ORIGINS_KEY
                :: Async.trace (dispatch namada (data e)),
              Async.outcome (dispatch namada (data e)))]
          /\ posted (Async.trace first) = []).
Proof.
  intros Ht Hc Hi. apply tagged_is_request in Ht.
  assert (Hn : needs_approval (get (data e) "method") = true)
    by (apply needs_approval_true; split; assumption).
  split; [ | split].
  - rewrite (listener_gated _ _ _ Ht Hn).
    destruct (kv_get s APPROVED_ORIGINS_KEY) as [stored | r | ];
      simpl; try reflexivity.
    destruct (includes _ (origin e)); simpl; [ | reflexivity].
    f_equal. apply dispatch_reads_nothing.
  - intros pre. apply run_app.
  - intros Hno. exists (listener namada s e). simpl. split.
    + do 2 f_equal. apply (listener_approved _ _ _ Ht Hn).
      exists (origin e :: others). simpl. rewrite String.eqb_refl.
      split; [reflexivity | now left].
    + now rewrite (listener_not_approved _ _ _ Ht Hn Hno).
Qed.

(** C9.  When the read of the store resolves with [undefined], a request
    whose method is neither [connect] nor [isConnected] is dropped,
    whatever its origin: the listener reads the store, posts nothing and
    completes normally. *)
Theorem undefined_store_is_empty (namada : Namada) (s : KVStore)
    (e : MessageEvent) :
  kv_get s APPROVED_ORIGINS_KEY = Fulfilled None ->
  get (data e) "type" = VStr ProxyRequestTypes_Request ->
  get (data e) "method" <> VStr "connect" ->
  get (data e) "method" <> VStr "isConnected" ->
  listener namada s e = ([StoreGet APPROVED_ORIGINS_KEY], Done tt).
Proof.
  intros Hget Ht Hc Hi. apply tagged_is_request in Ht.
  assert (Hn : needs_approval (get (data e) "method") = true)
    by (apply needs_approval_true; split; assumption).
  rewrite (listener_gated _ _ _ Ht Hn), Hget. reflexivity.
Qed.

(** C10.  When the read of the store rejects with [r], a request whose
    method is neither [connect] nor [isConnected] gets no response: the
    listener reads the store, posts nothing, and its own promise rejects
    with [r]; the [catch] of the dispatch is never reached. *)
Theorem store_rejection_escapes (namada : Namada) (s : KVStore)
    (e : MessageEvent) (r : Value) :
  kv_get s APPROVED_ORIGINS_KEY = Rejected r ->
  get (data e) "type" = VStr ProxyRequestTypes_Request ->
  get (data e) "method" <> VStr "connect" ->
  get (data e) "method" <> VStr "isConnected" ->
  listener namada s e = ([StoreGet APPROVED_ORIGINS_KEY], Raised r)
  /\ posted (Async.trace (listener namada s e)) = [].
Proof.
  intros Hget Ht Hc Hi. apply tagged_is_request in Ht.
  assert (Hn : needs_approval (get (data e) "method") = true)
    by (apply needs_approval_true; split; assumption).
  rewrite (listener_gated _ _ _ Ht Hn), Hget. split; reflexivity.
Qed.

(** ** Further properties of the listener *)

Lemma is_request_iff (message : Value) :
  is_request message = true
  <-> get message "type" = VStr ProxyRequestTypes_Request.
Proof.
  split; [apply is_request_tagged | apply tagged_is_request].
Qed.

Lemma needs_approval_iff (method : Value) :
  needs_approval method = true <-> ~ exempt method.
Proof.
  unfold exempt. rewrite <- needs_approval_false.
  destruct (needs_approval method); split; congruence.
Qed.

(** The dispatch as a function of what the method is and does. *)
Lemma dispatch_cases (namada : Namada) (message : Value) :
  dispatch namada message =
  let name := ToString (get message "method") in
  let args := get message "args" in
  match namada name with
  | Function f =>
      match f args with
      | Returns (Fulfilled v) =>
          ([Invoke name args; PostMessage (success message v)], Done tt)
      | Returns (Rejected x) | Throws x =>
          ([Invoke name args; PostMessage (failure message x)], Done tt)
      | Returns Pending => ([Invoke name args], Suspended)
      end
  | _ =>
      ([PostMessage (failure message (VError (name ++ " not found!")))],
       Done tt)
  end.
Proof.
  simpl.
  destruct (namada (ToString (get message "method"))) as [ | d | f] eqn:E.
  - apply dispatch_not_function. now rewrite E.
  - apply dispatch_not_function. now rewrite E.
  - apply (dispatch_function _ _ f E).
Qed.

(** The listener as a function of the message, the store and the
    dispatch. *)
Lemma listener_cases (namada : Namada) (s : KVStore) (e : MessageEvent) :
  listener namada s e =
  if is_request (data e) then
    if needs_approval (get (data e) "method") then
      match kv_get s APPROVED_ORIGINS_KEY with
      | Fulfilled stored =>
          if includes (match stored with Some l => l | None => [] end)
               (origin e)
          then (StoreGet APPROVED_ORIGINS_KEY
                  :: Async.trace (dispatch namada (data e)),
                Async.outcome (dispatch namada (data e)))
          else ([StoreGet APPROVED_ORIGINS_KEY], Done tt)
      | Rejected r => ([StoreGet APPROVED_ORIGINS_KEY], Raised r)
      | Pending => ([StoreGet APPROVED_ORIGINS_KEY], Suspended)
      end
    else dispatch namada (data e)
  else ([], Done tt).
Proof.
  destruct (is_request (data e)) eqn:Hr.
  - destruct (needs_approval (get (data e) "method")) eqn:Hn.
    + apply (listener_gated _ _ _ Hr Hn).
    + apply (listener_exempt _ _ _ Hr Hn).
  - apply (listener_not_request _ _ _ Hr).
Qed.

Lemma passes_dispatch (namada : Namada) (s : KVStore) (e : MessageEvent) :
  passes s e ->
  exists reads,
    (reads = [] \/ reads = [StoreGet APPROVED_ORIGINS_KEY])
    /\ listener namada s e
       = ((reads ++ Async.trace (dispatch namada (data e)))%list,
          Async.outcome (dispatch namada (data e))).
Proof.
  intros [Ht Hgo]. apply tagged_is_request in Ht.
  destruct (needs_approval (get (data e) "method")) eqn:Hn.
  - destruct Hgo as [Hx | Ha].
    + apply needs_approval_false in Hx. congruence.
    + exists [StoreGet APPROVED_ORIGINS_KEY]. split; [now right | ].
      apply (listener_approved _ _ _ Ht Hn Ha).
  - exists []. split; [now left | ].
    rewrite (listener_exempt _ _ _ Ht Hn).
    now destruct (dispatch namada (data e)).
Qed.

Lemma not_passes_quiet (namada : Namada) (s : KVStore) (e : MessageEvent) :
  ~ passes s e ->
  (Async.trace (listener namada s e) = []
   \/ Async.trace (listener namada s e) = [StoreGet APPROVED_ORIGINS_KEY])
  /\ (forall r, Async.outcome (listener namada s e) = Raised r ->
        is_request (data e) = true
        /\ needs_approval (get (data e) "method") = true
        /\ kv_get s APPROVED_ORIGINS_KEY = Rejected r)
  /\ (Async.outcome (listener namada s e) = Suspended ->
        is_request (data e) = true
        /\ needs_approval (get (data e) "method") = true
        /\ kv_get s APPROVED_ORIGINS_KEY = Pending).
Proof.
  intros Hno. rewrite listener_cases.
  destruct (is_request (data e)) eqn:Hr;
    [ | simpl; repeat split; auto; discriminate].
  apply is_request_iff in Hr.
  destruct (needs_approval (get (data e) "method")) eqn:Hn.
  - destruct (kv_get s APPROVED_ORIGINS_KEY) as [stored | r | ] eqn:Hget;
      simpl.
    + destruct (includes _ (origin e)) eqn:Hin.
      * exfalso. apply Hno. split; [assumption | right].
        destruct stored as [l | ]; [ | discriminate].
        exists l. split; [assumption | now apply includes_In].
      * simpl. repeat split; auto; discriminate.
    + repeat split; auto; try discriminate. congruence.
    + repeat split; auto; discriminate.
  - exfalso. apply Hno. split; [assumption | left].
    now apply needs_approval_false.
Qed.

Lemma passes_dec (s : KVStore) (e : MessageEvent) :
  passes s e \/ ~ passes s e.
Proof.
  unfold passes.
  destruct (is_request (data e)) eqn:Hr.
  - apply is_request_iff in Hr.
    destruct (needs_approval (get (data e) "method")) eqn:Hn.
    + apply needs_approval_iff in Hn.
      destruct (kv_get s APPROVED_ORIGINS_KEY) as [[l | ] | r | ] eqn:Hget.
      * destruct (includes l (origin e)) eqn:Hin.
        -- left. split; [assumption | right]. exists l.
           split; [assumption | now apply includes_In].
        -- right. intros [_ [Hx | [l' [Hget' Hin']]]]; [tauto | ].
           rewrite Hget in Hget'. injection Hget' as <-.
           apply includes_In in Hin'. congruence.
      * right. intros [_ [Hx | [l' [Hget' _]]]]; [tauto | congruence].
      * right. intros [_ [Hx | [l' [Hget' _]]]]; [tauto | congruence].
      * right. intros [_ [Hx | [l' [Hget' _]]]]; [tauto | congruence].
    + apply needs_approval_false in Hn. left. split; [assumption | now left].
  - right. intros [Ht _]. apply is_request_iff in Ht. congruence.
Qed.

(** What the dispatch leaves behind, in terms of the method. *)
Lemma dispatch_summary (namada : Namada) (message : Value) :
  let name := ToString (get message "method") in
  let args := get message "args" in
  let d := dispatch namada message in
  exists calls posts,
    Async.trace d = (calls ++ posts)%list
    /\ invoked (Async.trace d) = invoked calls
    /\ posted (Async.trace d) = posted posts
    /\ (calls = [] /\ typeof_function (namada name) = false
        \/ calls = [Invoke name args] /\ typeof_function (namada name) = true)
    /\ (posts = [] /\ hangs namada message /\ Async.outcome d = Suspended
        \/ (exists r, posts = [PostMessage r]
                      /\ type r = ProxyRequestTypes_Response
                      /\ id r = get message "id")
           /\ ~ hangs namada message /\ Async.outcome d = Done tt).
Proof.
  intros name args d. subst d. rewrite dispatch_cases. cbv zeta.
  fold name args.
  assert (Hnh : forall p, namada name = p ->
            (forall f, p = Function f -> f args <> Returns Pending) ->
            ~ hangs namada message).
  { intros p Hp Hne [f [Hf Hcall]]. fold name in Hf. fold args in Hcall.
    apply (Hne f); congruence. }
  assert (Hfun : forall f, namada name = Function f ->
            f args <> Returns Pending -> ~ hangs namada message).
  { intros f Hf Hne. apply (Hnh _ Hf). intros f' Hf'.
    injection Hf' as <-. assumption. }
  destruct (namada name) as [ | dv | f] eqn:E.
  - exists [], [PostMessage (failure message (VError (name ++ " not found!")))].
    do 3 (split; [reflexivity | ]). split; [left; split; reflexivity | ].
    right. split; [eauto | split; [ | reflexivity]].
    apply (Hnh Missing eq_refl). discriminate.
  - exists [], [PostMessage (failure message (VError (name ++ " not found!")))].
    do 3 (split; [reflexivity | ]). split; [left; split; reflexivity | ].
    right. split; [eauto | split; [ | reflexivity]].
    apply (Hnh (Data dv) eq_refl). discriminate.
  - destruct (f args) as [[v | x | ] | x] eqn:Ecall.
    + exists [Invoke name args], [PostMessage (success message v)].
      do 3 (split; [reflexivity | ]). split; [right; split; reflexivity | ].
      right. split; [eauto | split; [ | reflexivity]].
      apply (Hfun f eq_refl). congruence.
    + exists [Invoke name args], [PostMessage (failure message x)].
      do 3 (split; [reflexivity | ]). split; [right; split; reflexivity | ].
      right. split; [eauto | split; [ | reflexivity]].
      apply (Hfun f eq_refl). congruence.
    + exists [Invoke name args], [].
      do 3 (split; [reflexivity | ]). split; [right; split; reflexivity | ].
      left. split; [reflexivity | split; [ | reflexivity]].
      exists f. split; assumption.
    + exists [Invoke name args], [PostMessage (failure message x)].
      do 3 (split; [reflexivity | ]). split; [right; split; reflexivity | ].
      right. split; [eauto | split; [ | reflexivity]].
      apply (Hfun f eq_refl). congruence.
Qed.

Lemma posted_app (a b : list Effect) :
  posted (a ++ b) = (posted a ++ posted b)%list.
Proof.
  induction a as [ | [k | m x | r] a IH]; simpl; congruence.
Qed.

Lemma invoked_app (a b : list Effect) :
  invoked (a ++ b) = (invoked a ++ invoked b)%list.
Proof.
  induction a as [ | [k | m x | r] a IH]; simpl; congruence.
Qed.

Lemma reads_only (reads : list Effect) :
  reads = [] \/ reads = [StoreGet APPROVED_ORIGINS_KEY] ->
  posted reads = [] /\ invoked reads = [].
Proof.
  intros [-> | ->]; split; reflexivity.
Qed.

(** X1.  Whatever the message, the store and the capability object, the
    listener performs at most one read of the store (of the approved
    origins), then at most one call (of the method named in the message,
    with [message.args] as its only argument), then at most one
    [postMessage], in this order and nothing else. *)
Theorem listener_effects_in_order (namada : Namada) (s : KVStore)
    (e : MessageEvent) :
  exists reads calls posts,
    Async.trace (listener namada s e) = (reads ++ calls ++ posts)%list
    /\ (reads = [] \/ reads = [StoreGet APPROVED_ORIGINS_KEY])
    /\ (calls = []
        \/ calls = [Invoke (ToString (get (data e) "method"))
                      (get (data e) "args")])
    /\ (posts = [] \/ exists r, posts = [PostMessage r]).
Proof.
  destruct (passes_dec s e) as [Hp | Hno].
  - destruct (passes_dispatch namada s e Hp) as [reads [Hreads Hl]].
    destruct (dispatch_summary namada (data e))
      as [calls [posts [Ht [_ [_ [Hc Hposts]]]]]].
    exists reads, calls, posts. rewrite Hl. simpl. rewrite Ht.
    split; [reflexivity | split; [assumption | split]].
    + destruct Hc as [[-> _] | [-> _]]; [now left | now right].
    + destruct Hposts as [[-> _] | [[r [-> _]] _]]; [now left | right].
      now exists r.
  - destruct (not_passes_quiet namada s e Hno) as [Htr _].
    exists (Async.trace (listener namada s e)), [], [].
    rewrite !app_nil_r. repeat split; auto.
Qed.

(** X2.  Every response the listener posts, for any message at all, has the
    response tag as its [type] and the [id] read from the message, be it
    [undefined]. *)
Theorem response_echoes_id (namada : Namada) (s : KVStore)
    (e : MessageEvent) :
  Forall (fun r => type r = ProxyRequestTypes_Response
                   /\ id r = get (data e) "id")
    (posted (Async.trace (listener namada s e))).
Proof.
  destruct (passes_dec s e) as [Hp | Hno].
  - destruct (passes_dispatch namada s e Hp) as [reads [Hreads Hl]].
    destruct (dispatch_summary namada (data e))
      as [calls [posts [_ [_ [Hpo [_ Hposts]]]]]].
    rewrite Hl. simpl. rewrite posted_app, Hpo.
    destruct (reads_only reads Hreads) as [-> _]. simpl.
    destruct Hposts as [[-> _] | [[r [-> [Hty Hid]]] _]]; simpl.
    + constructor.
    + constructor; [split; assumption | constructor].
  - destruct (not_passes_quiet namada s e Hno) as [[-> | ->] _];
      constructor.
Qed.

(** X3.  The promise of the listener rejects with [r] exactly when the
    message is a request, its method is not exempt and the read of the
    store rejects with [r]: nothing the capability object throws or rejects
    with escapes the listener, nor does a method that is not found. *)
Theorem listener_rejects_iff_store_rejects (namada : Namada) (s : KVStore)
    (e : MessageEvent) (r : Value) :
  Async.outcome (listener namada s e) = Raised r
  <-> get (data e) "type" = VStr ProxyRequestTypes_Request
      /\ ~ exempt (get (data e) "method")
      /\ kv_get s APPROVED_ORIGINS_KEY = Rejected r.
Proof.
  split.
  - intros Hout. destruct (passes_dec s e) as [Hp | Hno].
    + exfalso.
      destruct (passes_dispatch namada s e Hp) as [reads [_ Hl]].
      rewrite Hl in Hout. simpl in Hout.
      destruct (dispatch_summary namada (data e))
        as [_ [_ [_ [_ [_ [_ [[_ [_ Hd]] | [_ [_ Hd]]]]]]]]];
        congruence.
    + destruct (not_passes_quiet namada s e Hno) as [_ [Hr _]].
      destruct (Hr r Hout) as [H1 [H2 H3]].
      split; [now apply is_request_iff | ].
      split; [now apply needs_approval_iff | assumption].
  - intros [Ht [Hx Hget]]. apply is_request_iff in Ht.
    apply needs_approval_iff in Hx.
    now rewrite (listener_gated _ _ _ Ht Hx), Hget.
Qed.

(** X4.  The listener posts a response exactly when the message passes the
    filter and the gate and the call of its method does not hang: these
    requests and no others are answered. *)
Theorem answered_iff_passes_and_settles (namada : Namada) (s : KVStore)
    (e : MessageEvent) :
  posted (Async.trace (listener namada s e)) <> []
  <-> passes s e /\ ~ hangs namada (data e).
Proof.
  destruct (passes_dec s e) as [Hp | Hno].
  - destruct (passes_dispatch namada s e Hp) as [reads [Hreads Hl]].
    destruct (dispatch_summary namada (data e))
      as [calls [posts [_ [_ [Hpo [_ Hposts]]]]]].
    rewrite Hl. simpl. rewrite posted_app, Hpo.
    destruct (reads_only reads Hreads) as [-> _]. simpl.
    destruct Hposts as [[-> [Hh _]] | [[r [-> _]] [Hnh _]]]; simpl.
    + split; [congruence | tauto].
    + split; [tauto | discriminate].
  - destruct (not_passes_quiet namada s e Hno) as [[-> | ->] _];
      simpl; split; solve [congruence | tauto].
Qed.

(** X5.  The listener calls into the capability object exactly when the
    message passes the filter and the gate and its method is a function:
    for anything else (another kind of message, an origin that is not
    approved, a failed read of the store) no method runs. *)
Theorem invoked_iff_passes (namada : Namada) (s : KVStore)
    (e : MessageEvent) :
  invoked (Async.trace (listener namada s e)) <> []
  <-> passes s e
      /\ typeof_function (namada (ToString (get (data e) "method"))) = true.
Proof.
  destruct (passes_dec s e) as [Hp | Hno].
  - destruct (passes_dispatch namada s e Hp) as [reads [Hreads Hl]].
    destruct (dispatch_summary namada (data e))
      as [calls [posts [_ [Hin [_ [Hc _]]]]]].
    rewrite Hl. simpl. rewrite invoked_app, Hin.
    destruct (reads_only reads Hreads) as [_ ->]. simpl.
    destruct Hc as [[-> Hty] | [-> Hty]]; simpl.
    + split; [congruence | ]. intros [_ H]. congruence.
    + split; [tauto | discriminate].
  - destruct (not_passes_quiet namada s e Hno) as [[-> | ->] _];
      simpl; split; solve [congruence | tauto].
Qed.

(** X6.  The listener stays suspended for ever exactly when the read of
    the store never settles for a request that needs it, or when the message
    passes the gate and the call of its method never settles; and a
    listener that stays suspended has posted nothing. *)
Theorem listener_suspends_iff (namada : Namada) (s : KVStore)
    (e : MessageEvent) :
  (Async.outcome (listener namada s e) = Suspended
   <-> (get (data e) "type" = VStr ProxyRequestTypes_Request
        /\ ~ exempt (get (data e) "method")
        /\ kv_get s APPROVED_ORIGINS_KEY = Pending)
       \/ (passes s e /\ hangs namada (data e)))
  /\ (Async.outcome (listener namada s e) = Suspended ->
      posted (Async.trace (listener namada s e)) = []).
Proof.
  destruct (passes_dec s e) as [Hp | Hno].
  - destruct (passes_dispatch namada s e Hp) as [reads [Hreads Hl]].
    rewrite Hl. simpl.
    destruct (reads_only reads Hreads) as [Hpr _].
    destruct (dispatch_summary namada (data e))
      as [calls [posts [_ [_ [Hpo [_ [[Hnil [Hh Hd]] | [_ [Hnh Hd]]]]]]]]];
      rewrite Hd.
    + split; [split; [intros _; right; now split | reflexivity] | ].
      intros _. rewrite posted_app, Hpr, Hpo, Hnil. reflexivity.
    + split; [ | discriminate].
      split; [discriminate | ].
      intros [[_ [Hx Hget]] | [_ Hh]]; [ | contradiction].
      exfalso. destruct Hp as [_ [Hx' | [l [Hget' _]]]];
        [contradiction | congruence].
  - destruct (not_passes_quiet namada s e Hno) as [Htr [_ Hs]].
    split; [split | ].
    + intros Hout. destruct (Hs Hout) as [H1 [H2 H3]]. left.
      split; [now apply is_request_iff | ].
      split; [now apply needs_approval_iff | assumption].
    + intros [[Ht [Hx Hget]] | [Hp _]]; [ | contradiction].
      apply is_request_iff in Ht. apply needs_approval_iff in Hx.
      now rewrite (listener_gated _ _ _ Ht Hx), Hget.
    + intros _. destruct Htr as [-> | ->]; reflexivity.
Qed.

(** X13.  For an origin that is not approved, the only methods the listener
    can ever call on the capability object are [connect] and
    [isConnected]. *)
Theorem unapproved_reaches_only_exempt (namada : Namada) (s : KVStore)
    (e : MessageEvent) (m : string) :
  ~ approved s (origin e) ->
  In m (invoked (Async.trace (listener namada s e))) ->
  m = "connect" \/ m = "isConnected".
Proof.
  intros Hno Hin.
  destruct (passes_dec s e) as [Hp | Hnp].
  - destruct (passes_dispatch namada s e Hp) as [reads [Hreads Hl]].
    destruct (dispatch_summary namada (data e))
      as [calls [posts [_ [Hi [_ [Hc _]]]]]].
    rewrite Hl in Hin. simpl in Hin. rewrite invoked_app, Hi in Hin.
    destruct (reads_only reads Hreads) as [_ Hr]. rewrite Hr in Hin.
    simpl in Hin.
    destruct Hc as [[-> _] | [-> _]]; simpl in Hin; [contradiction | ].
    destruct Hin as [<- | []].
    destruct Hp as [_ [[Hx | Hx] | Ha]]; [ | | contradiction];
      rewrite Hx; [now left | now right].
  - destruct (not_passes_quiet namada s e Hnp) as [[Htr | Htr] _];
      rewrite Htr in Hin; contradiction.
Qed.

End Proxy.

(** ** The claims on the sample page

    The tags are "request" and "response", the key is [Sample.key]. *)

Lemma store_approves_app :
  approved Sample.key Sample.store "https://app.example".
Proof.
  exists ["https://app.example"]. split; [reflexivity | now left].
Qed.

Lemma store_rejects_evil :
  ~ approved Sample.key Sample.store "https://evil.example".
Proof.
  intros [l [Hget Hin]]. vm_compute in Hget. injection Hget as <-.
  destruct Hin as [H | []]. discriminate.
Qed.

Lemma empty_store_approves_nobody (o : string) :
  ~ approved Sample.key Sample.empty_store o.
Proof.
  intros [l [Hget _]]. discriminate.
Qed.


(** [signTx] from a page that was never approved leaves no response. *)
Lemma unapproved_origin_dropped_witness :
  posted (Async.trace
       (listener "request" "response" Sample.key Sample.namada
          Sample.store Sample.stranger)) = []
  /\ invoked (Async.trace
       (listener "request" "response" Sample.key Sample.namada
          Sample.store Sample.stranger)) = []
  /\ Async.trace
       (listener "request" "response" Sample.key Sample.namada
          Sample.store Sample.stranger)
     = [StoreGet Sample.key].
Proof.
  apply (unapproved_origin_dropped "request" "response" Sample.key
           Sample.namada Sample.store Sample.stranger).
  - reflexivity.
  - discriminate.
  - discriminate.
  - exact store_rejects_evil.
Defined.

(** [doesNotExist] from an approved page is answered with an error. *)
Lemma unknown_method_one_error_witness :
  posted (Async.trace
       (listener "request" "response" Sample.key Sample.namada
          Sample.store Sample.unknown))
    = [Sample.response "2" {| return_ := None;
                       error := Some (VError "doesNotExist not found!") |}]
  /\ string_includes "doesNotExist" "doesNotExist not found!" = true
  /\ Async.outcome
       (listener "request" "response" Sample.key Sample.namada
          Sample.store Sample.unknown) = Done tt.
Proof.
  apply (unknown_method_one_error "request" "response" Sample.key
           Sample.namada Sample.store Sample.unknown "doesNotExist").
  - reflexivity.
  - reflexivity.
  - right. exact store_approves_app.
  - reflexivity.
Defined.

(** An object without a [type] is ignored. *)
Lemma foreign_message_ignored_witness :
  listener "request" "response" Sample.key Sample.namada Sample.broken_store
    (Sample.from "https://app.example" (VObj [("method", VStr "signTx")]))
  = ([], Done tt).
Proof.
  apply (foreign_message_ignored "request" "response" Sample.key
           Sample.namada Sample.broken_store
           (Sample.from "https://app.example"
              (VObj [("method", VStr "signTx")]))).
  right. right. left. exists [("method", VStr "signTx")].
  split; reflexivity.
Defined.

(** [connect] from a page that was never approved is dispatched, with a
    store that would reject every read. *)
Lemma exactly_two_methods_exempt_witness :
  listener "request" "response" Sample.key Sample.namada
    Sample.broken_store Sample.connect
    = dispatch "response" Sample.namada (data Sample.connect)
  /\ store_reads
       (Async.trace
            (listener "request" "response" Sample.key Sample.namada
               Sample.broken_store Sample.connect))
     = [].
Proof.
  apply (exactly_two_methods_exempt "request" "response" Sample.key
           Sample.namada Sample.broken_store Sample.connect).
  - reflexivity.
  - left. reflexivity.
Defined.

(** The rejection of [signTx] reaches the approved page as it was raised. *)
Lemma raised_value_forwarded_witness :
  invoked (Async.trace
       (listener "request" "response" Sample.key Sample.namada
          Sample.store Sample.sign))
    = ["signTx"]
  /\ posted (Async.trace
       (listener "request" "response" Sample.key Sample.namada
          Sample.store Sample.sign))
    = [Sample.response "3" {| return_ := None;
                       error := Some (VError "Signing rejected") |}].
Proof.
  apply (raised_value_forwarded "request" "response" Sample.key
           Sample.namada Sample.store Sample.sign
           (fun _ => Returns (Rejected (VError "Signing rejected")))
           (VError "Signing rejected")).
  - reflexivity.
  - right. exact store_approves_app.
  - reflexivity.
  - right. reflexivity.
Defined.

(** The balance query is dropped before the page is approved and answered
    after. *)
Lemma approval_read_on_every_request_witness :
  exists first,
    run "request" "response" Sample.key Sample.namada Sample.empty_store
      [Deliver Sample.query;
       StoreSet Sample.key (Some ["https://app.example"]);
       Deliver Sample.query]
    = [first;
       (StoreGet Sample.key
          :: Async.trace
               (dispatch "response" Sample.namada (data Sample.query)),
        Async.outcome (dispatch "response" Sample.namada (data Sample.query)))]
    /\ posted (Async.trace first) = [].
Proof.
  apply (approval_read_on_every_request "request" "response" Sample.key
           Sample.namada Sample.empty_store Sample.query []).
  - reflexivity.
  - discriminate.
  - discriminate.
  - apply empty_store_approves_nobody.
Defined.

(** With nothing stored, the balance query is dropped. *)
Lemma undefined_store_is_empty_witness :
  listener "request" "response" Sample.key Sample.namada
    Sample.empty_store Sample.query
  = ([StoreGet Sample.key], Done tt).
Proof.
  apply (undefined_store_is_empty "request" "response" Sample.key
           Sample.namada Sample.empty_store Sample.query).
  - reflexivity.
  - reflexivity.
  - discriminate.
  - discriminate.
Defined.

(** With a store that fails, the listener fails with the store's error. *)
Lemma store_rejection_escapes_witness :
  listener "request" "response" Sample.key Sample.namada
    Sample.broken_store Sample.query
  = ([StoreGet Sample.key], Raised (VError "storage unavailable"))
  /\ posted (Async.trace
       (listener "request" "response" Sample.key Sample.namada
          Sample.broken_store Sample.query))
     = [].
Proof.
  apply (store_rejection_escapes "request" "response" Sample.key
           Sample.namada Sample.broken_store Sample.query
           (VError "storage unavailable")).
  - reflexivity.
  - reflexivity.
  - discriminate.
  - discriminate.
Defined.

(** * The services behind the capability object *)

(** [const x = await p; ...k x...] in an [async] function without other
    effects: the promise the function returns. *)
Definition and_then {A B} (p : Promise A) (k : A -> Promise B) : Promise B :=
  match p with
  | Fulfilled a => k a
  | Rejected e => Rejected e
  | Pending => Pending
  end.

(** What [new C(...)] comes to: an instance, or a thrown value. *)
Inductive Construction (A : Type) : Type :=
| Built (a : A)
| Thrown (e : Value).
Arguments Built {A} a.
Arguments Thrown {A} e.

(** [return new C(...)] at the end of an [async] function. *)
Definition settle {A} (c : Construction A) : Promise A :=
  match c with
  | Built a => Fulfilled a
  | Thrown e => Rejected e
  end.

(** ** SdkService (apps/extension, background/sdk) *)

Module SdkService.

(** [ChainsService], as far as the service uses it: what [getChain()]
    answers when it is called, a chain or [undefined]. *)
Record ChainsService : Type := {
  getChain : Promise Value
}.

Section Clients.

(** [Sdk] and [Query] are wasm classes of @namada/shared; their
    constructors, applied to the rpc address, are parameters. *)
Variables Sdk Query : Type.
Variable new_Sdk : Value -> Construction Sdk.
Variable new_Query : Value -> Construction Query.

(** [getRpc]: the [rpc] of the chain read from the store at every call. *)
Definition getRpc (chainsService : ChainsService) : Promise Value :=
  and_then (getChain chainsService) (fun chain =>
    if negb (truthy chain) then Rejected (VError "No chain found!")
    else
      let rpc := get chain "rpc" in
      Fulfilled rpc).

Definition getSdk (chainsService : ChainsService) : Promise Sdk :=
  and_then (getRpc chainsService) (fun rpc => settle (new_Sdk rpc)).

Definition getQuery (chainsService : ChainsService) : Promise Query :=
  and_then (getRpc chainsService) (fun rpc => settle (new_Query rpc)).

(** X7.  [getSdk] and [getQuery] resolve exactly when the store answers
    with a chain and the constructor, given the [rpc] of that very chain,
    builds the client; [getRpc] resolves with that [rpc]. *)
Theorem clients_built_from_current_chain (cs : ChainsService)
    (sdk : Sdk) (query : Query) :
  (getSdk cs = Fulfilled sdk
   <-> exists chain,
         getChain cs = Fulfilled chain /\ truthy chain = true
         /\ getRpc cs = Fulfilled (get chain "rpc")
         /\ new_Sdk (get chain "rpc") = Built sdk)
  /\ (getQuery cs = Fulfilled query
      <-> exists chain,
            getChain cs = Fulfilled chain /\ truthy chain = true
            /\ getRpc cs = Fulfilled (get chain "rpc")
            /\ new_Query (get chain "rpc") = Built query).
Proof.
  unfold getSdk, getQuery, getRpc.
  destruct (getChain cs) as [chain | e | ]; simpl.
  - destruct (truthy chain) eqn:Ht; simpl.
    + split; split.
      * intros H. exists chain. repeat split; auto.
        destruct (new_Sdk (get chain "rpc")); simpl in H; congruence.
      * intros [c [Hc [_ [_ Hb]]]]. injection Hc as <-. now rewrite Hb.
      * intros H. exists chain. repeat split; auto.
        destruct (new_Query (get chain "rpc")); simpl in H; congruence.
      * intros [c [Hc [_ [_ Hb]]]]. injection Hc as <-. now rewrite Hb.
    + split; split; try discriminate;
        intros [c [Hc [Ht' _]]]; injection Hc as <-; congruence.
  - split; split; try discriminate; intros [c [Hc _]]; discriminate.
  - split; split; try discriminate; intros [c [Hc _]]; discriminate.
Qed.

(** X8.  When the store answers with no chain ([undefined], or any falsy
    value), [getRpc], [getSdk] and [getQuery] all reject with the error
    "No chain found!", whatever the constructors would do: no client is
    built without a chain. *)
Theorem no_chain_no_client (cs : ChainsService) (chain : Value) :
  getChain cs = Fulfilled chain ->
  truthy chain = false ->
  getRpc cs = Rejected (VError "No chain found!")
  /\ getSdk cs = Rejected (VError "No chain found!")
  /\ getQuery cs = Rejected (VError "No chain found!").
Proof.
  intros Hc Ht. unfold getSdk, getQuery, getRpc. rewrite Hc. simpl.
  rewrite Ht. repeat split.
Qed.

(** X9.  [getSdk] rejects with [x] in exactly three cases: the read of the
    chain rejects with [x]; there is no chain and [x] is the error
    "No chain found!"; or there is a chain and the constructor throws [x]
    on its [rpc]. *)
Theorem getSdk_rejects_iff (cs : ChainsService) (x : Value) :
  getSdk cs = Rejected x
  <-> getChain cs = Rejected x
      \/ (exists chain,
            getChain cs = Fulfilled chain /\ truthy chain = false
            /\ x = VError "No chain found!")
      \/ (exists chain,
            getChain cs = Fulfilled chain /\ truthy chain = true
            /\ new_Sdk (get chain "rpc") = Thrown x).
Proof.
  unfold getSdk, getRpc.
  destruct (getChain cs) as [chain | e | ]; simpl.
  - destruct (truthy chain) eqn:Ht; simpl.
    + split.
      * intros H. right. right. exists chain. repeat split; auto.
        destruct (new_Sdk (get chain "rpc")); simpl in H; congruence.
      * intros [H | [[c [Hc [Hf _]]] | [c [Hc [_ Hb]]]]].
        -- discriminate.
        -- injection Hc as <-. congruence.
        -- injection Hc as <-. now rewrite Hb.
    + split.
      * intros H. right. left. exists chain. repeat split; congruence.
      * intros [H | [[c [Hc [_ Hx]]] | [c [Hc [Hf _]]]]].
        -- discriminate.
        -- congruence.
        -- injection Hc as <-. congruence.
  - split.
    + intros H. left. congruence.
    + intros [H | [[c [Hc _]] | [c [Hc _]]]]; congruence.
  - split; [discriminate | ].
    intros [H | [[c [Hc _]] | [c [Hc _]]]]; discriminate.
Qed.

End Clients.

End SdkService.

(** ** Rpc (packages/sdk, rpc): the staking queries *)

Module Rpc.

(** [QueryWasm], as far as the two staking queries use it.  A row is an
    array; the staking positions come as a pair of arrays of rows. *)
Record QueryWasm : Type := {
  query_my_validators : list string -> Promise (list (list Value));
  query_staking_positions :
    list string -> Promise (list (list Value) * list (list Value))
}.

(** The [i]-th variable of an array pattern [[a, b, ...]]: the [i]-th
    element of the array, [undefined] when the array is shorter. *)
Definition column (i : nat) (row : list Value) : Value :=
  nth i row VUndefined.

(** The objects the three arrow functions build from a row. *)
Definition staking_total (row : list Value) : Value :=
  VObj [("owner", column 0 row); ("validator", column 1 row);
        ("bonds", column 2 row); ("unbonds", column 3 row);
        ("withdrawable", column 4 row)].

Definition bond (row : list Value) : Value :=
  VObj [("owner", column 0 row); ("validator", column 1 row);
        ("amount", column 2 row); ("startEpoch", column 3 row)].

Definition unbond (row : list Value) : Value :=
  VObj [("owner", column 0 row); ("validator", column 1 row);
        ("amount", column 2 row); ("startEpoch", column 3 row);
        ("withdrawableEpoch", column 4 row)].

(** [queryStakingTotals]. *)
Definition queryStakingTotals (query : QueryWasm) (owners : list string)
  : Promise (list Value) :=
  and_then (query_my_validators query owners) (fun stakingAmounts =>
    Fulfilled (map staking_total stakingAmounts)).

(** [StakingPositions], the object [queryStakingPositions] returns. *)
Record StakingPositions : Type := {
  bonds : list Value;
  unbonds : list Value
}.

(** [queryStakingPositions]. *)
Definition queryStakingPositions (query : QueryWasm) (owners : list string)
  : Promise StakingPositions :=
  and_then (query_staking_positions query owners) (fun '(bonds, unbonds) =>
    Fulfilled {| bonds := map bond bonds; unbonds := map unbond unbonds |}).

(** The values of an object under the given keys, in their order. *)
Definition values (keys : list string) (obj : Value) : list Value :=
  map (get obj) keys.

Definition staking_total_keys : list string :=
  ["owner"; "validator"; "bonds"; "unbonds"; "withdrawable"].

Definition bond_keys : list string :=
  ["owner"; "validator"; "amount"; "startEpoch"].

Definition unbond_keys : list string :=
  ["owner"; "validator"; "amount"; "startEpoch"; "withdrawableEpoch"].

(** A row cut or filled with [undefined] to [n] columns. *)
Definition fit (n : nat) (row : list Value) : list Value :=
  firstn n (row ++ repeat VUndefined n).

Lemma fit_exact (n : nat) (row : list Value) :
  length row = n -> fit n row = row.
Proof.
  intros <-. unfold fit. rewrite firstn_app, firstn_all, Nat.sub_diag.
  simpl. apply app_nil_r.
Qed.

Lemma fit_columns_4 (row : list Value) :
  fit 4 row = [column 0 row; column 1 row; column 2 row; column 3 row].
Proof.
  destruct row as [ | a [ | b [ | c [ | d rest]]]]; reflexivity.
Qed.

Lemma fit_columns_5 (row : list Value) :
  fit 5 row
  = [column 0 row; column 1 row; column 2 row; column 3 row; column 4 row].
Proof.
  destruct row as [ | a [ | b [ | c [ | d [ | x rest]]]]]; reflexivity.
Qed.

Lemma map_fit_exact (n : nat) (rows : list (list Value)) :
  Forall (fun row => length row = n) rows -> map (fit n) rows = rows.
Proof.
  induction 1 as [ | row rows Hrow _ IH]; simpl; [reflexivity | ].
  now rewrite IH, fit_exact.
Qed.

(** X10.  [queryStakingTotals] settles as the wasm query does: it rejects
    with the same value, stays pending with it, and resolves with one object
    per row, in the order of the rows.  The five keys of an object hold the
    first five columns of its row ([undefined] for a column the row lacks),
    so rows of five columns are recovered from the objects unchanged. *)
Theorem queryStakingTotals_keeps_rows (query : QueryWasm)
    (owners : list string) :
  (forall x, queryStakingTotals query owners = Rejected x
             <-> query_my_validators query owners = Rejected x)
  /\ (queryStakingTotals query owners = Pending
      <-> query_my_validators query owners = Pending)
  /\ (forall rows,
        query_my_validators query owners = Fulfilled rows ->
        exists totals,
          queryStakingTotals query owners = Fulfilled totals
          /\ length totals = length rows
          /\ map (values staking_total_keys) totals = map (fit 5) rows
          /\ (Forall (fun row => length row = 5) rows ->
              map (values staking_total_keys) totals = rows)).
Proof.
  unfold queryStakingTotals.
  assert (Hv : forall rows,
            map (values staking_total_keys) (map staking_total rows)
            = map (fit 5) rows).
  { intros rows. rewrite map_map. apply map_ext. intros row.
    now rewrite fit_columns_5. }
  destruct (query_my_validators query owners) as [rows | e | ]; simpl.
  - split; [ | split].
    + intros x. split; discriminate.
    + split; discriminate.
    + intros rows' H. injection H as <-. exists (map staking_total rows).
      split; [reflexivity | ]. split; [apply length_map | ].
      split; [apply Hv | ].
      intros Hfive. rewrite Hv. now apply map_fit_exact.
  - split; [ | split]; try discriminate.
    + intros x. split; congruence.
    + split; discriminate.
  - split; [ | split]; try discriminate.
    + intros x. split; discriminate.
    + split; reflexivity.
Qed.

(** X11.  [queryStakingPositions] settles as the wasm query does and keeps
    the two lists apart and in order: the bonds come from the first array,
    four columns each, the unbonds from the second, five columns each.  A
    bond never has a [withdrawableEpoch], even when its row has a fifth
    column. *)
Theorem queryStakingPositions_keeps_rows (query : QueryWasm)
    (owners : list string) :
  (forall x, queryStakingPositions query owners = Rejected x
             <-> query_staking_positions query owners = Rejected x)
  /\ (queryStakingPositions query owners = Pending
      <-> query_staking_positions query owners = Pending)
  /\ (forall bs us,
        query_staking_positions query owners = Fulfilled (bs, us) ->
        exists positions,
          queryStakingPositions query owners = Fulfilled positions
          /\ map (values bond_keys) (bonds positions) = map (fit 4) bs
          /\ map (values unbond_keys) (unbonds positions) = map (fit 5) us
          /\ Forall (fun b => get b "withdrawableEpoch" = VUndefined)
               (bonds positions)).
Proof.
  unfold queryStakingPositions.
  destruct (query_staking_positions query owners) as [[bs us] | e | ];
    simpl.
  - split; [ | split].
    + intros x. split; discriminate.
    + split; discriminate.
    + intros bs' us' H. injection H as <- <-.
      eexists. split; [reflexivity | ]. simpl. split; [ | split].
      * rewrite map_map. apply map_ext. intros row.
        now rewrite fit_columns_4.
      * rewrite map_map. apply map_ext. intros row.
        now rewrite fit_columns_5.
      * apply Forall_forall. intros b Hb. apply in_map_iff in Hb.
        destruct Hb as [row [<- _]]. reflexivity.
  - split; [ | split]; try discriminate.
    + intros x. split; congruence.
    + split; discriminate.
  - split; [ | split]; try discriminate.
    + intros x. split; discriminate.
    + split; reflexivity.
Qed.

End Rpc.

(** ** The release configuration of the utils package *)

Module ReleaseIt.

(** [{ ...fields, k: v }]: the properties of [fields] with [k] set to [v],
    in place when [fields] has the key, at the end otherwise. *)
Fixpoint define (k : string) (v : Value) (fields : list (string * Value))
  : list (string * Value) :=
  match fields with
  | [] => [(k, v)]
  | (k', v') :: rest =>
      if k' =? k then (k, v) :: rest else (k', v') :: define k v rest
  end.

Definition hooks : Value :=
  VObj [("after:bump", VArr [VStr "yarn bump -p utils"])].

(** [config], for the properties [baseConfig] of the base configuration
    the file requires. *)
Definition config (baseConfig : list (string * Value)) : Value :=
  VObj (define "hooks" hooks baseConfig).

Lemma lookup_define_same (k : string) (v : Value)
    (fields : list (string * Value)) :
  lookup k (define k v fields) = Some v.
Proof.
  induction fields as [ | [k' v'] rest IH]; simpl.
  - now rewrite String.eqb_refl.
  - destruct (k' =? k) eqn:E; simpl.
    + now rewrite String.eqb_refl.
    + now rewrite E.
Qed.

Lemma lookup_define_other (k j : string) (v : Value)
    (fields : list (string * Value)) :
  j <> k -> lookup j (define k v fields) = lookup j fields.
Proof.
  intros Hne. apply String.eqb_neq in Hne.
  induction fields as [ | [k' v'] rest IH]; simpl.
  - rewrite String.eqb_sym. now rewrite Hne.
  - destruct (k' =? k) eqn:E; simpl.
    + apply String.eqb_eq in E. subst k'.
      rewrite String.eqb_sym. now rewrite Hne.
    + now rewrite IH.
Qed.

(** X12.  Whatever the base configuration holds, the exported configuration
    has exactly the one [after:bump] hook as its [hooks] (hooks of the base
    are replaced, not merged) and every other key as in the base. *)
Theorem config_replaces_hooks_only (baseConfig : list (string * Value)) :
  get (config baseConfig) "hooks" = hooks
  /\ (forall k, k <> "hooks" ->
        get (config baseConfig) k = get (VObj baseConfig) k).
Proof.
  unfold config. simpl. split.
  - now rewrite lookup_define_same.
  - intros k Hk. now rewrite lookup_define_other.
Qed.

End ReleaseIt.

(** ** The services on samples *)

Module ServiceSample.

Definition no_chain : SdkService.ChainsService :=
  {| SdkService.getChain := Fulfilled VUndefined |}.

(** Stand-ins for the wasm classes: a client is its address. *)
Definition new_client (rpc : Value) : Construction string :=
  match rpc with
  | VStr url => Built url
  | _ => Thrown (VError "expected a string")
  end.

Definition totals_rows : list (list Value) :=
  [[VStr "tnam1owner"; VStr "tnam1validator"; VStr "10"; VStr "2"; VStr "1"]].

Definition bond_rows : list (list Value) :=
  [[VStr "tnam1owner"; VStr "tnam1validator"; VStr "10"; VStr "7";
    VStr "extra"]].

Definition unbond_rows : list (list Value) :=
  [[VStr "tnam1owner"; VStr "tnam1validator"; VStr "2"; VStr "7"]].

Definition query : Rpc.QueryWasm :=
  {| Rpc.query_my_validators := fun _ => Fulfilled totals_rows;
     Rpc.query_staking_positions := fun _ =>
       Fulfilled (bond_rows, unbond_rows) |}.

Definition base : list (string * Value) :=
  [("git", VObj [("push", VBool false)]);
   ("hooks", VObj [("before:init", VArr [VStr "yarn lint"])]);
   ("npm", VObj [("publish", VBool false)])].

End ServiceSample.

(** Without a chain there is no client. *)
Lemma no_chain_no_client_witness :
  SdkService.getRpc ServiceSample.no_chain
    = Rejected (VError "No chain found!")
  /\ SdkService.getSdk string ServiceSample.new_client ServiceSample.no_chain
    = Rejected (VError "No chain found!")
  /\ SdkService.getQuery string ServiceSample.new_client
       ServiceSample.no_chain
    = Rejected (VError "No chain found!").
Proof.
  apply (SdkService.no_chain_no_client string string
           ServiceSample.new_client ServiceSample.new_client
           ServiceSample.no_chain VUndefined).
  - reflexivity.
  - reflexivity.
Defined.

(** A row of five columns comes back from the object built from it. *)
Lemma queryStakingTotals_keeps_rows_witness :
  exists totals,
    Rpc.queryStakingTotals ServiceSample.query ["tnam1owner"]
      = Fulfilled totals
    /\ length totals = length ServiceSample.totals_rows
    /\ map (Rpc.values Rpc.staking_total_keys) totals
       = map (Rpc.fit 5) ServiceSample.totals_rows
    /\ (Forall (fun row => length row = 5) ServiceSample.totals_rows ->
        map (Rpc.values Rpc.staking_total_keys) totals
        = ServiceSample.totals_rows).
Proof.
  apply (Rpc.queryStakingTotals_keeps_rows ServiceSample.query
           ["tnam1owner"]).
  reflexivity.
Defined.

(** A bond row with a fifth column and an unbond row without one. *)
Lemma queryStakingPositions_keeps_rows_witness :
  exists positions,
    Rpc.queryStakingPositions ServiceSample.query ["tnam1owner"]
      = Fulfilled positions
    /\ map (Rpc.values Rpc.bond_keys) (Rpc.bonds positions)
       = map (Rpc.fit 4) ServiceSample.bond_rows
    /\ map (Rpc.values Rpc.unbond_keys) (Rpc.unbonds positions)
       = map (Rpc.fit 5) ServiceSample.unbond_rows
    /\ Forall (fun b => get b "withdrawableEpoch" = VUndefined)
         (Rpc.bonds positions).
Proof.
  apply (Rpc.queryStakingPositions_keeps_rows ServiceSample.query
           ["tnam1owner"]).
  reflexivity.
Defined.

(** The hooks of the base are gone, its [npm] settings are kept. *)
Lemma config_replaces_hooks_only_witness :
  get (ReleaseIt.config ServiceSample.base) "npm"
  = VObj [("publish", VBool false)].
Proof.
  rewrite (proj2 (ReleaseIt.config_replaces_hooks_only ServiceSample.base)
             "npm").
  - reflexivity.
  - discriminate.
Defined.

(** A page that was never approved gets [connect] called and nothing else. *)
Lemma unapproved_reaches_only_exempt_witness :
  In "connect"
    (invoked (Async.trace
       (listener "request" "response" Sample.key Sample.namada
          Sample.store Sample.connect)))
  /\ ("connect" = "connect" \/ "connect" = "isConnected").
Proof.
  assert (Hin : In "connect"
            (invoked (Async.trace
               (listener "request" "response" Sample.key Sample.namada
                  Sample.store Sample.connect))))
    by (now left).
  split; [exact Hin | ].
  exact (unapproved_reaches_only_exempt "request" "response" Sample.key
           Sample.namada Sample.store Sample.connect "connect"
           store_rejects_evil Hin).
Defined.

(** ** A capability object that does not answer *)

Module Stalled.

(** [signTx] waits for a confirmation that never comes. *)
Definition namada : Namada := fun key =>
  if key =? "signTx" then Function (fun _ => Returns Pending)
  else Sample.namada key.

End Stalled.

(** A signature that is never confirmed: the listener waits and the page
    gets nothing. *)
Lemma listener_suspends_iff_witness :
  posted (Async.trace
       (listener "request" "response" Sample.key Stalled.namada
          Sample.store Sample.sign)) = [].
Proof.
  apply (proj2 (listener_suspends_iff "request" "response" Sample.key
                  Stalled.namada Sample.store Sample.sign)).
  reflexivity.
Defined.
